(** * Email template service: the Express handlers of [src/index.js]

    A shallow embedding of the request handlers, the transporter
    configuration and the middleware order of [src/index.js], followed by
    the properties of the dispatch pipeline.

    JavaScript values are embedded as the inductive [JsValue]; objects are
    finite maps from property names to values.  Effects (the transport
    call, [console.error]) are recorded in a trace threaded through a small
    exception-and-state monad, so that "the transport is never invoked"
    is a statement about the trace. *)

From Stdlib Require Import Floats Ascii.
From stdpp Require Import gmap strings list fin_maps pretty.

Set Warnings "-register-all".
Set Default Proof Using "Type".

(** ** JavaScript values *)

(** Numbers are IEEE 754 binary64, as in the language.  Strings are Rocq
    strings holding the UTF-8 bytes of the text.  The language indexes a
    string by UTF-16 code units; the one place that does so, the spread
    of a string value, computes the code units from the bytes
    ([utf16_units] below). *)
Inductive JsValue : Type :=
  | JUndefined
  | JNull
  | JBool (b : bool)
  | JNum (n : float)
  | JStr (s : string)
  | JArr (l : list JsValue)
  | JObj (m : gmap string JsValue).

(** ToBoolean: [undefined], [null], [false], [+0], [-0], [NaN] and the
    empty string are falsy; everything else (objects and arrays included)
    is truthy. *)
Definition truthy (v : JsValue) : bool :=
  match v with
  | JUndefined | JNull => false
  | JBool b => b
  | JNum n => negb (PrimFloat.eqb n 0%float || negb (PrimFloat.eqb n n))
  | JStr s => negb (String.eqb s "")
  | JArr _ | JObj _ => true
  end.

(** [!v] *)
Definition js_not (v : JsValue) : bool := negb (truthy v).

(** [a || b] yields the left operand when it is truthy, the right one
    otherwise. *)
Definition js_or (a b : JsValue) : JsValue := if truthy a then a else b.

(** [v === s] for a string literal [s]: strict equality never coerces. *)
Definition strict_equals_str (v : JsValue) (s : string) : bool :=
  match v with
  | JStr s' => String.eqb s' s
  | _ => false
  end.

(** Property read [o.k] (and the destructuring [const { k } = o]) on an
    object with the given own properties: a missing property reads as
    [undefined]. *)
Definition prop (o : gmap string JsValue) (k : string) : JsValue :=
  default JUndefined (o !! k).

(** The code units of a text, each as the string that holds it alone.
    A character of the basic plane (one to three bytes) is one code
    unit.  A character beyond it (four bytes) is two code units, a high
    and a low surrogate; a surrogate alone has no UTF-8 form, and is
    written in the three-byte form of its code point.  A byte that
    begins no well-formed sequence, which decoded text never holds, is
    kept as a unit. *)
Definition continuation (b : N) : bool := ((128 <=? b) && (b <=? 191))%N.

Definition text_of (bs : list N) : string :=
  String.string_of_list_ascii (ascii_of_N <$> bs).

Definition surrogate (u : N) : string :=
  text_of [224 + u `div` 4096; 128 + (u `div` 64) `mod` 64; 128 + u `mod` 64]%N.

Definition surrogates (b1 b2 b3 b4 : N) : list string :=
  let cp := ((b1 `mod` 8) * 262144 + (b2 `mod` 64) * 4096
             + (b3 `mod` 64) * 64 + b4 `mod` 64)%N in
  let c := (cp - 65536)%N in
  [surrogate (55296 + c `div` 1024); surrogate (56320 + c `mod` 1024)]%N.

Fixpoint utf16_units (bs : list N) : list string :=
  match bs with
  | [] => []
  | b1 :: r1 =>
      let stray := text_of [b1] :: utf16_units r1 in
      if (b1 <? 194)%N then stray else
      match r1 with
      | b2 :: r2 =>
          if negb (continuation b2) then stray else
          if (b1 <? 224)%N then text_of [b1; b2] :: utf16_units r2 else
          match r2 with
          | b3 :: r3 =>
              if negb (continuation b3) then stray else
              if (b1 <? 240)%N then text_of [b1; b2; b3] :: utf16_units r3 else
              match r3 with
              | b4 :: r4 =>
                  if continuation b4 && (b1 <? 245)%N
                  then surrogates b1 b2 b3 b4 ++ utf16_units r4
                  else stray
              | [] => stray
              end
          | [] => stray
          end
      | [] => stray
      end
  end.

(** The own enumerable properties copied by the spread [{ ...v }]:
    nothing for [undefined], [null], booleans and numbers; the indexed
    characters of a string; the indexed elements of an array; the
    properties of an object. *)
Definition own_enumerable (v : JsValue) : gmap string JsValue :=
  match v with
  | JObj m => m
  | JArr l => list_to_map (imap (λ i x, (pretty i, x)) l)
  | JStr s =>
      list_to_map
        (imap (λ i u, (pretty i, JStr u))
              (utf16_units (N_of_ascii <$> String.list_ascii_of_string s)))
  | JUndefined | JNull | JBool _ | JNum _ => ∅
  end.

(** A string literal in double quotes, as it appears inside a message. *)
Definition quoted (s : string) : string :=
  String "034"%char s +:+ String "034"%char EmptyString.

(** An object literal [{ k1: v1, ..., kn: vn }]: later keys win. *)
Definition object (kvs : list (string * JsValue)) : gmap string JsValue :=
  foldl (λ o kv, <[kv.1 := kv.2]> o) ∅ kvs.

(** ** The environment of a request *)

(** A thrown (or rejected) [Error]; the handlers read only [message]. *)
Record JsError := { message : string }.

(** The object handed to [transporter.sendMail]. *)
Record MailOptions := {
  from : JsValue;
  to : JsValue;
  replyTo : JsValue;
  subject : JsValue;
  template : JsValue;
  context : gmap string JsValue;
}.

(** What [sendMail] resolves to; the handlers read only [messageId]. *)
Record SentMessageInfo := { messageId : string }.

(** The promise returned by [sendMail] settles one way or the other.  The
    Handlebars compile step is registered on the transporter
    ([transporter.use('compile', hbs(...))]), so a template that cannot be
    found or rendered is a rejection of [sendMail], like an SMTP failure. *)
Inductive TransportReply :=
  | Resolved (info : SentMessageInfo)
  | Rejected (error : JsError).

(** Everything a handler reads besides the request: [process.env], the
    clock and the transport. *)
Record World := {
  process_env : gmap string string;
  getFullYear : float;            (* new Date().getFullYear() *)
  toISOString : string;           (* new Date().toISOString() *)
  transport : MailOptions → TransportReply;
}.

(** [process.env.NAME]: a string, or [undefined] when the variable is not
    set. *)
Definition env (w : World) (name : string) : JsValue :=
  match process_env w !! name with
  | Some s => JStr s
  | None => JUndefined
  end.

(** ** Effects *)

Inductive Event :=
  | EvSendMail (mailOptions : MailOptions)
  | EvConsoleError (label : string) (error : JsError).

Inductive Completion (A : Type) :=
  | Normal (a : A)
  | Throw (error : JsError).
Arguments Normal {A} a.
Arguments Throw {A} error.

(** A computation extends the trace of events and completes normally or
    abruptly. *)
Definition Eff (A : Type) : Type := list Event → Completion A * list Event.

Definition ret {A} (a : A) : Eff A := λ t, (Normal a, t).

Definition bind {A B} (m : Eff A) (k : A → Eff B) : Eff B :=
  λ t, match m t with
       | (Normal a, t') => k a t'
       | (Throw e, t') => (Throw e, t')
       end.

#[global] Instance Eff_ret : MRet Eff := @ret.
#[global] Instance Eff_bind : MBind Eff := λ A B k m, bind m k.

(** [try { body } catch (error) { handler }] *)
Definition try_catch {A} (body : Eff A) (handler : JsError → Eff A) : Eff A :=
  λ t, match body t with
       | (Normal a, t') => (Normal a, t')
       | (Throw e, t') => handler e t'
       end.

(** [await transporter.sendMail(mailOptions)] *)
Definition sendMail (w : World) (mailOptions : MailOptions)
  : Eff SentMessageInfo :=
  λ t, (match transport w mailOptions with
        | Resolved info => Normal info
        | Rejected e => Throw e
        end, t ++ [EvSendMail mailOptions]).

(** [console.error(label, error)] *)
Definition console_error (label : string) (error : JsError) : Eff unit :=
  λ t, (Normal (), t ++ [EvConsoleError label error]).

(** The messages handed to the transport, in order. *)
Definition sent (t : list Event) : list MailOptions :=
  omap (λ e, match e with EvSendMail m => Some m | _ => None end) t.

(** ** Responses *)

(** What [JSON.stringify] makes of a value, read back as a value: a
    number that is not finite becomes [null] and [-0] becomes [0]; an
    [undefined] element of an array becomes [null]; a property whose
    value is [undefined] is left out ([None]). *)
Definition json_number (n : float) : JsValue :=
  if is_nan n || is_infinity n then JNull
  else if PrimFloat.eqb n 0%float then JNum 0%float
  else JNum n.

Fixpoint json_value (v : JsValue) : option JsValue :=
  match v with
  | JUndefined => None
  | JNull => Some JNull
  | JBool b => Some (JBool b)
  | JNum n => Some (json_number n)
  | JStr s => Some (JStr s)
  | JArr l => Some (JArr ((λ x, default JNull (json_value x)) <$> l))
  | JObj m => Some (JObj (omap json_value m))
  end.

Definition to_json (obj : gmap string JsValue) : gmap string JsValue :=
  omap json_value obj.

(** A response: the status and the JSON object of the body. *)
Record Response := {
  statusCode : Z;
  body : gmap string JsValue;
}.

(** [res.status(code).json(obj)]: the body is the serialisation of
    [obj]. *)
Definition status_json (code : Z) (obj : gmap string JsValue) : Eff Response :=
  ret {| statusCode := code; body := to_json obj |}.

(** ** Transporter configuration *)

(** The options of [nodemailer.createTransport] that do not go through
    [parseInt]. *)
Record TransportOptions := {
  host : JsValue;
  secure : JsValue;
  auth_user : JsValue;
  auth_pass : JsValue;
}.

Definition transporter (w : World) : TransportOptions := {|
  host := js_or (env w "EMAIL_HOST") (JStr "smtp.googlemail.com");
  secure :=
    js_or (JBool (strict_equals_str (env w "EMAIL_SECURE") "true"))
          (JBool false);
  auth_user := env w "EMAIL_USER";
  auth_pass := env w "EMAIL_PASSWORD";
|}.

(** ** The port of the transporter *)

(** [parseInt(string, 10)] skips leading white space, reads an optional
    sign and the longest run of decimal digits, and yields the number
    they denote, or [NaN] when there is no digit.  The string is read as
    the UTF-8 bytes the environment holds; the white space and line
    terminators of the language are spelled in that encoding. *)
(** The bytes of a string. *)
Definition bytes (s : string) : list N :=
  N_of_ascii <$> String.list_ascii_of_string s.

(** Tab, line feed, vertical tab, form feed, carriage return, space. *)
Definition ws1 (b : N) : bool :=
  bool_decide (b ∈ [9; 10; 11; 12; 13; 32]%N).
(** U+00A0. *)
Definition ws2 (b1 b2 : N) : bool := ((b1 =? 194) && (b2 =? 160))%N.
(** U+1680, U+2000 to U+200A, U+2028, U+2029, U+202F, U+205F, U+3000,
    U+FEFF. *)
Definition ws3 (b1 b2 b3 : N) : bool :=
  ((b1 =? 225) && (b2 =? 154) && (b3 =? 128)
   || (b1 =? 226) && (b2 =? 128)
      && ((128 <=? b3) && (b3 <=? 138) || (b3 =? 168) || (b3 =? 169) || (b3 =? 175))
   || (b1 =? 226) && (b2 =? 129) && (b3 =? 159)
   || (b1 =? 227) && (b2 =? 128) && (b3 =? 128)
   || (b1 =? 239) && (b2 =? 187) && (b3 =? 191))%N.

Fixpoint trim_start (l : list N) : list N :=
  match l with
  | b1 :: l1 =>
      if ws1 b1 then trim_start l1 else
      match l1 with
      | b2 :: l2 =>
          if ws2 b1 b2 then trim_start l2 else
          match l2 with
          | b3 :: l3 => if ws3 b1 b2 b3 then trim_start l3 else l
          | [] => l
          end
      | [] => l
      end
  | [] => []
  end.

(** The value of a decimal digit. *)
Definition digit (b : N) : option Z :=
  if ((48 <=? b) && (b <=? 57))%N then Some (Z.of_N b - 48)%Z else None.

(** The integer denoted by the leading digits; [acc] is [None] until a
    digit has been read. *)
Fixpoint leading_digits (l : list N) (acc : option Z) : option Z :=
  match l with
  | b :: l' =>
      match digit b with
      | Some d => leading_digits l' (Some (10 * default 0 acc + d)%Z)
      | None => acc
      end
  | [] => acc
  end.

(** The double nearest to an integer (ties to even); [-0] for a negated
    zero.  The language lets an implementation round the digits past the
    twentieth; the conversion here is exact. *)
Definition to_number (negative : bool) (n : Z) : float :=
  SF2Prim (binary_normalize prec emax (if negative then - n else n)%Z 0 negative).

Definition parseInt10 (input : string) : float :=
  let s := trim_start (bytes input) in
  let '(negative, z) :=
    match s with
    | 45%N :: z => (true, z)
    | 43%N :: z => (false, z)
    | _ => (false, s)
    end in
  match leading_digits z None with
  | None => nan
  | Some n => to_number negative n
  end.

(** [ToString(process.env.NAME)]: the value, or the text of [undefined]. *)
Definition env_string (w : World) (name : string) : string :=
  match process_env w !! name with
  | Some s => s
  | None => "undefined"
  end.

(** [port: parseInt(process.env.EMAIL_PORT, 10) || 465] *)
Definition port (w : World) : JsValue :=
  js_or (JNum (parseInt10 (env_string w "EMAIL_PORT"))) (JNum 465%float).

(** ** Listening port *)

(** [const PORT = process.env.PORT || 4000] *)
Definition PORT (w : World) : JsValue := js_or (env w "PORT") (JNum 4000%float).

(** ** Handlers *)

(** [GET /health] *)
Definition health (w : World) : Eff Response :=
  status_json 200 (object [
    ("status", JStr "OK");
    ("message", JStr "Email service is running");
    ("timestamp", JStr (toISOString w))
  ]).

(** The [mailOptions] of [POST /send-welcome-email]. *)
Definition welcome_mailOptions (w : World) (to username verificationLink : JsValue)
  : MailOptions := {|
  from := env w "EMAIL_FROM";
  to := to;
  replyTo := env w "EMAIL_REPLY_TO";
  subject := JStr "Welcome to Our Platform!";
  template := JStr "welcome";
  context := object [
    ("username", username);
    ("verification_link", js_or verificationLink (JStr "#"));
    ("company_name", env w "COMPANY_NAME");
    ("current_year", JNum (getFullYear w))
  ];
|}.

(** [POST /send-welcome-email] *)
Definition send_welcome_email (w : World) (req_body : gmap string JsValue)
  : Eff Response :=
  try_catch
    (let to := prop req_body "to" in
     let username := prop req_body "username" in
     let verificationLink := prop req_body "verificationLink" in
     if js_not to || js_not username then
       status_json 400 (object [
         ("error", JStr "Missing required fields");
         ("message", JStr ("Both " +:+ quoted "to" +:+ " and " +:+ quoted "username"
                          +:+ " are required fields"))
       ])
     else
       let mailOptions := welcome_mailOptions w to username verificationLink in
       info ← sendMail w mailOptions;
       status_json 200 (object [
         ("success", JBool true);
         ("message", JStr "Welcome email sent successfully");
         ("messageId", JStr (messageId info));
         ("recipient", to)
       ]))
    (λ error,
       console_error "Email sending failed:" error;;
       status_json 500 (object [
         ("error", JStr "Email sending failed");
         ("message", JStr (message error))
       ])).

(** The [mailOptions] of [POST /send-email]: the caller's context is
    spread first, then the two injected keys are written. *)
Definition custom_mailOptions (w : World) (to subject template context : JsValue)
  : MailOptions := {|
  from := env w "EMAIL_FROM";
  to := to;
  replyTo := env w "EMAIL_REPLY_TO";
  subject := subject;
  template := template;
  context :=
    <["current_year" := JNum (getFullYear w)]>
      (<["company_name" := env w "COMPANY_NAME"]> (own_enumerable context));
|}.

(** [POST /send-email] *)
Definition send_email (w : World) (req_body : gmap string JsValue)
  : Eff Response :=
  try_catch
    (let to := prop req_body "to" in
     let subject := prop req_body "subject" in
     let template := prop req_body "template" in
     let context := prop req_body "context" in
     if js_not to || js_not subject || js_not template then
       status_json 400 (object [
         ("error", JStr "Missing required fields");
         ("message", JStr (quoted "to" +:+ ", " +:+ quoted "subject"
                          +:+ ", and " +:+ quoted "template"
                          +:+ " are required fields"))
       ])
     else
       let mailOptions := custom_mailOptions w to subject template context in
       info ← sendMail w mailOptions;
       status_json 200 (object [
         ("success", JBool true);
         ("message", JStr "Email sent successfully");
         ("messageId", JStr (messageId info));
         ("recipient", to)
       ]))
    (λ error,
       console_error "Email sending failed:" error;;
       status_json 500 (object [
         ("error", JStr "Email sending failed");
         ("message", JStr (message error))
       ])).

(** The error-handling middleware [(error, req, res, next) => ...]. *)
Definition error_middleware (error : JsError) : Eff Response :=
  console_error "Unhandled error:" error;;
  status_json 500 (object [
    ("error", JStr "Internal server error");
    ("message", JStr "Something went wrong on our end")
  ]).

(** ** The application: middleware and routes in registration order *)

Inductive Method := GET | POST | PUT | PATCH | DELETE | HEAD | OPTIONS.

#[global] Instance Method_eq_dec : EqDecision Method.
Proof. solve_decision. Defined.

(** What [express.json()] does with a request: it leaves an object in
    [req.body] (the empty object when there is no JSON payload), or it
    passes an error to [next] when the payload cannot be parsed. *)
Inductive JsonOutcome :=
  | Populated (req_body : gmap string JsValue)
  | ParseFailed (error : JsError).

Record Request := {
  method : Method;
  originalUrl : string;
  parsed : JsonOutcome;
}.

(** The 404 handler registered with [app.use('*', ...)]. *)
Definition not_found (req : Request) : Eff Response :=
  status_json 404 (object [
    ("error", JStr "Route not found");
    ("message",
      JStr ("The route " +:+ originalUrl req +:+ " does not exist"))
  ]).

(** Express decides whether a route registered for a method and a path
    pattern takes a request; that matcher belongs to the framework and is
    a parameter here. *)
Definition Matcher : Type := Method → string → Request → bool.

(** A matcher for closed examples: the catch-all pattern takes every
    request, a route the requests of its method and URL. *)
Definition exact_route : Matcher :=
  λ m path req,
    if String.eqb path "*" then true
    else bool_decide (method req = m) && String.eqb (originalUrl req) path.

(** No one of the three routes takes the request. *)
Definition unrouted (matches : Matcher) (req : Request) : bool :=
  negb (matches GET "/health" req)
  && negb (matches POST "/send-welcome-email" req)
  && negb (matches POST "/send-email" req).

(** Whether the layer of [app.use('*', ...)] takes the request.  The
    pattern fits every path, but Express decodes the path while matching
    it, and a path with a malformed percent-escape cannot be decoded:
    that is the one way for the catch-all not to take a request. *)
Definition catch_all (matches : Matcher) (req : Request) : bool :=
  matches (method req) "*" req.

(** Express's own final handler, reached when no layer answered: here
    only with the error raised while matching the catch-all, which
    carries status 400.  The error-handling middleware is registered
    before the catch-all and does not see that error.  The page the
    final handler writes is not JSON and has no object; its log line is
    Express's and is not recorded in the trace. *)
Definition final_handler : Eff Response :=
  ret {| statusCode := 400; body := ∅ |}.

(** The stack as [index.js] registers it: [express.json()], the three
    routes, the error-handling middleware, the catch-all.  An error
    passed to [next] skips every layer that is not an error handler; the
    route handlers catch their own errors and never call [next]. *)
Definition app (matches : Matcher) (w : World) (req : Request) : Eff Response :=
  match parsed req with
  | ParseFailed error => error_middleware error
  | Populated req_body =>
      if matches GET "/health" req then health w
      else if matches POST "/send-welcome-email" req then
        send_welcome_email w req_body
      else if matches POST "/send-email" req then send_email w req_body
      else if catch_all matches req then not_found req
      else final_handler
  end.

(** ** Vocabulary of the properties *)

(** The two dispatch endpoints. *)
Inductive Endpoint := Welcome | Custom.

Definition handler (ep : Endpoint) : World → gmap string JsValue → Eff Response :=
  match ep with
  | Welcome => send_welcome_email
  | Custom => send_email
  end.

(** The fields each endpoint documents as required. *)
Definition required (ep : Endpoint) : list string :=
  match ep with
  | Welcome => ["to"; "username"]
  | Custom => ["to"; "subject"; "template"]
  end.

(** A field is absent from the body, or is the empty string. *)
Definition absent_or_empty (req_body : gmap string JsValue) (k : string) : Prop :=
  req_body !! k = None ∨ req_body !! k = Some (JStr "").

(** Every required field is present with a truthy value. *)
Definition passes_validation (ep : Endpoint) (req_body : gmap string JsValue) : bool :=
  forallb (λ k, truthy (prop req_body k)) (required ep).

(** The message an endpoint builds for a body. *)
Definition mailOptions_of (ep : Endpoint) (w : World) (req_body : gmap string JsValue)
  : MailOptions :=
  match ep with
  | Welcome =>
      welcome_mailOptions w (prop req_body "to") (prop req_body "username")
        (prop req_body "verificationLink")
  | Custom =>
      custom_mailOptions w (prop req_body "to") (prop req_body "subject")
        (prop req_body "template") (prop req_body "context")
  end.

(** The bodies of the three kinds of response of a dispatch endpoint. *)
Definition validation_failure (ep : Endpoint) : Response := {|
  statusCode := 400;
  body := object [
    ("error", JStr "Missing required fields");
    ("message", JStr
      match ep with
      | Welcome =>
          "Both " +:+ quoted "to" +:+ " and " +:+ quoted "username"
          +:+ " are required fields"
      | Custom =>
          quoted "to" +:+ ", " +:+ quoted "subject" +:+ ", and "
          +:+ quoted "template" +:+ " are required fields"
      end)
  ];
|}.

Definition success_message (ep : Endpoint) : string :=
  match ep with
  | Welcome => "Welcome email sent successfully"
  | Custom => "Email sent successfully"
  end.

Definition success_response (ep : Endpoint) (info : SentMessageInfo)
    (req_body : gmap string JsValue) : Response := {|
  statusCode := 200;
  body := to_json (object [
    ("success", JBool true);
    ("message", JStr (success_message ep));
    ("messageId", JStr (messageId info));
    ("recipient", prop req_body "to")
  ]);
|}.

Definition failure_response (error : JsError) : Response := {|
  statusCode := 500;
  body := object [
    ("error", JStr "Email sending failed");
    ("message", JStr (message error))
  ];
|}.

(** The messages a handler hands to the transport when started on an
    empty trace. *)
Definition dispatched (ep : Endpoint) (w : World) (req_body : gmap string JsValue)
  : list MailOptions :=
  sent (handler ep w req_body []).2.

(** The welcome link read literally from the specification: the link of
    the request whenever the field is present, the placeholder only when
    the field is absent.  Compared with the code in the properties. *)
Definition verification_link_if_present (req_body : gmap string JsValue) : JsValue :=
  default (JStr "#") (req_body !! "verificationLink").


(** The fields of the body each handler destructures. *)
Definition reads (ep : Endpoint) : list string :=
  match ep with
  | Welcome => ["to"; "username"; "verificationLink"]
  | Custom => ["to"; "subject"; "template"; "context"]
  end.

(** The route an endpoint is registered under. *)
Definition route_of (ep : Endpoint) : string :=
  match ep with
  | Welcome => "/send-welcome-email"
  | Custom => "/send-email"
  end.

(** An ASCII letter. *)
Definition is_letter (c : ascii) : bool :=
  let b := N_of_ascii c in
  ((65 <=? b) && (b <=? 90) || (97 <=? b) && (b <=? 122))%N.

(** [fuel] consecutive integers from [from]. *)
Fixpoint count_from (from : Z) (fuel : nat) : list Z :=
  match fuel with
  | O => []
  | S fuel => from :: count_from (from + 1) fuel
  end.

(** The number read for a port is usable and is the integer itself. *)
Definition usable_port (n : Z) : bool :=
  truthy (JNum (to_number false n))
  && PrimFloat.eqb (to_number false n) (PrimFloat.of_uint63 (Uint63.of_Z n)).

(** The events a run adds to the trace it starts from. *)
Definition emitted {A} (m : Eff A) : list Event := (m []).2.

(** ** Closed inputs *)

Definition always (r : TransportReply) : MailOptions → TransportReply := λ _, r.

Definition acme (reply : TransportReply) : World := {|
  process_env := list_to_map [
    ("EMAIL_FROM", "noreply@acme.test");
    ("EMAIL_REPLY_TO", "support@acme.test");
    ("COMPANY_NAME", "Acme");
    ("EMAIL_SECURE", "true")
  ];
  getFullYear := 2025%float;
  toISOString := "2025-08-07T10:30:00.000Z";
  transport := always reply;
|}.

(** No variable of the environment is set. *)
Definition bare (reply : TransportReply) : World := {|
  process_env := ∅;
  getFullYear := 2025%float;
  toISOString := "2025-08-07T10:30:00.000Z";
  transport := always reply;
|}.

Definition msg1 : TransportReply := Resolved {| messageId := "msg-1" |}.
Definition refused : TransportReply :=
  Rejected {| message := "connect ECONNREFUSED 127.0.0.1:465" |}.

Definition john : gmap string JsValue := object [
  ("to", JStr "user@example.com");
  ("username", JStr "John Doe");
  ("verificationLink", JStr "https://app/verify?token=abc123")
].

Definition john_no_link : gmap string JsValue := object [
  ("to", JStr "user@example.com");
  ("username", JStr "John Doe")
].

Definition john_empty_link : gmap string JsValue := object [
  ("to", JStr "user@example.com");
  ("username", JStr "John Doe");
  ("verificationLink", JStr "")
].

Definition only_to : gmap string JsValue := object [("to", JStr "a@b.com")].

Definition spoof : gmap string JsValue := object [
  ("to", JStr "a@b.com");
  ("subject", JStr "Hello");
  ("template", JStr "welcome");
  ("context", JObj (object [
     ("username", JStr "Ann");
     ("company_name", JStr "Evil Corp");
     ("current_year", JNum 1999%float)
   ]))
].



(** The same configuration and transport as [acme], read at another
    instant of the same year. *)
Definition acme_later (reply : TransportReply) : World := {|
  process_env := process_env (acme reply);
  getFullYear := 2025%float;
  toISOString := "2025-12-31T23:59:59.000Z";
  transport := always reply;
|}.


Definition null_recipient : gmap string JsValue := object [
  ("to", JNull);
  ("username", JStr "John Doe")
].

(** [john] with fields the welcome handler does not read. *)
Definition john_extra : gmap string JsValue :=
  <["from" := JStr "ceo@evil.test"]> (<["company_name" := JStr "Evil Corp"]> john).

Definition list_context : gmap string JsValue := object [
  ("to", JStr "a@b.com");
  ("subject", JStr "Hello");
  ("template", JStr "welcome");
  ("context", JArr [JStr "Ann"; JStr "Bob"])
].

Definition no_context : gmap string JsValue := object [
  ("to", JStr "a@b.com");
  ("subject", JStr "Hello");
  ("template", JStr "welcome")
].

Definition post_welcome (req_body : gmap string JsValue) : Request := {|
  method := POST;
  originalUrl := "/send-welcome-email";
  parsed := Populated req_body;
|}.

Definition submission (reply : TransportReply) : World := {|
  process_env := {[ "EMAIL_PORT" := "587" ]};
  getFullYear := 2025%float;
  toISOString := "2025-08-07T10:30:00.000Z";
  transport := always reply;
|}.

Definition port_by_name (reply : TransportReply) : World := {|
  process_env := {[ "EMAIL_PORT" := "smtps" ]};
  getFullYear := 2025%float;
  toISOString := "2025-08-07T10:30:00.000Z";
  transport := always reply;
|}.

(** * Properties *)

(** ** Evaluation on the closed inputs *)

Example welcome_john :
  send_welcome_email (acme msg1) john [] =
  (Normal {| statusCode := 200;
             body := object [
               ("success", JBool true);
               ("message", JStr "Welcome email sent successfully");
               ("messageId", JStr "msg-1");
               ("recipient", JStr "user@example.com")] |},
   [EvSendMail (mailOptions_of Welcome (acme msg1) john)]).
Proof. reflexivity. Qed.

Example custom_only_to :
  send_email (acme msg1) only_to [] = (Normal (validation_failure Custom), []).
Proof. reflexivity. Qed.

Example spoof_context :
  context <$> dispatched Custom (acme msg1) spoof =
  [object [("username", JStr "Ann"); ("company_name", JStr "Acme");
           ("current_year", JNum 2025%float)]].
Proof. vm_compute. reflexivity. Qed.

(** The spread of a string goes by code unit: one key for an accented
    letter of two bytes, two keys for a character beyond the basic
    plane. *)
Example spread_text :
  own_enumerable (JStr "ab") = object [("0", JStr "a"); ("1", JStr "b")]
  ∧ own_enumerable (JStr "é") = object [("0", JStr "é")]
  ∧ dom (own_enumerable (JStr "😀")) = {[ "0"; "1" ]}.
Proof. repeat split; vm_compute; reflexivity. Qed.

(** Serialisation keeps strings, booleans and finite numbers, turns a
    number that is not finite into [null], and leaves out [undefined]. *)
Example to_json_values :
  to_json (object [("a", JStr "x"); ("b", JNum 2025%float);
                   ("c", JNum infinity); ("d", JNum nan);
                   ("e", JNum (-0)%float); ("f", JUndefined);
                   ("g", JArr [JUndefined; JBool true])])
  = object [("a", JStr "x"); ("b", JNum 2025%float); ("c", JNull);
            ("d", JNull); ("e", JNum 0%float);
            ("g", JArr [JNull; JBool true])].
Proof. vm_compute. reflexivity. Qed.

(** ** The three outcomes of a dispatch handler *)

(** The guard of each handler is the negation of [passes_validation]. *)
Lemma welcome_guard req_body :
  js_not (prop req_body "to") || js_not (prop req_body "username")
  = negb (passes_validation Welcome req_body).
Proof.
  unfold passes_validation, js_not; simpl.
  destruct (truthy (prop req_body "to")), (truthy (prop req_body "username"));
    reflexivity.
Qed.

Lemma custom_guard req_body :
  js_not (prop req_body "to") || js_not (prop req_body "subject")
    || js_not (prop req_body "template")
  = negb (passes_validation Custom req_body).
Proof.
  unfold passes_validation, js_not; simpl.
  destruct (truthy (prop req_body "to")), (truthy (prop req_body "subject")),
    (truthy (prop req_body "template")); reflexivity.
Qed.

(** Unfold a handler down to its guard, and rewrite the guard. *)
Ltac handler_cases ep :=
  destruct ep; unfold handler, send_welcome_email, send_email, try_catch;
  [rewrite welcome_guard | rewrite custom_guard].

Lemma handler_invalid ep w req_body t :
  passes_validation ep req_body = false →
  handler ep w req_body t = (Normal (validation_failure ep), t).
Proof. intros Hv. handler_cases ep; rewrite Hv; reflexivity. Qed.

Lemma handler_resolved ep w req_body t info :
  passes_validation ep req_body = true →
  transport w (mailOptions_of ep w req_body) = Resolved info →
  handler ep w req_body t =
  (Normal (success_response ep info req_body),
   t ++ [EvSendMail (mailOptions_of ep w req_body)]).
Proof.
  intros Hv Ht. handler_cases ep; rewrite Hv; simpl in *;
    unfold mbind, Eff_bind, bind, sendMail; rewrite Ht; reflexivity.
Qed.

Lemma handler_rejected ep w req_body t error :
  passes_validation ep req_body = true →
  transport w (mailOptions_of ep w req_body) = Rejected error →
  handler ep w req_body t =
  (Normal (failure_response error),
   t ++ [EvSendMail (mailOptions_of ep w req_body);
         EvConsoleError "Email sending failed:" error]).
Proof.
  intros Hv Ht. handler_cases ep; rewrite Hv; simpl in *;
    unfold mbind, Eff_bind, bind, sendMail; rewrite Ht; simpl;
    unfold console_error; rewrite <- app_assoc; reflexivity.
Qed.

(** What a handler hands to the transport: nothing when validation
    fails, exactly one message otherwise. *)
Lemma dispatched_spec ep w req_body :
  dispatched ep w req_body =
  if passes_validation ep req_body then [mailOptions_of ep w req_body] else [].
Proof.
  unfold dispatched.
  destruct (passes_validation ep req_body) eqn:Hv.
  - destruct (transport w (mailOptions_of ep w req_body)) as [info|error] eqn:Ht.
    + rewrite (handler_resolved _ _ _ _ info Hv Ht). reflexivity.
    + rewrite (handler_rejected _ _ _ _ error Hv Ht). reflexivity.
  - rewrite (handler_invalid _ _ _ _ Hv). reflexivity.
Qed.

(** A field that is absent or empty fails validation wherever it is
    required. *)
Lemma absent_or_empty_falsy req_body k :
  absent_or_empty req_body k → truthy (prop req_body k) = false.
Proof. unfold prop. intros [-> | ->]; reflexivity. Qed.

Lemma required_falsy_invalid ep req_body k :
  k ∈ required ep → truthy (prop req_body k) = false →
  passes_validation ep req_body = false.
Proof.
  intros Hk Hf. unfold passes_validation.
  apply not_true_is_false. intros Hall.
  rewrite forallb_forall in Hall.
  apply list_elem_of_In in Hk. rewrite (Hall _ Hk) in Hf. discriminate.
Qed.

(** ** The injected context keys *)

(** C1. On either endpoint, every message handed to the transport carries
    a context whose [company_name] is the configured company name and
    whose [current_year] is the year of the clock, whatever the caller
    supplied under those two names. *)
Theorem injected_keys_overwrite ep w req_body opts :
  opts ∈ dispatched ep w req_body →
  context opts !! "company_name" = Some (env w "COMPANY_NAME")
  ∧ context opts !! "current_year" = Some (JNum (getFullYear w)).
Proof.
  rewrite dispatched_spec.
  destruct (passes_validation ep req_body); [|by intros ?%elem_of_nil].
  intros ->%list_elem_of_singleton.
  destruct ep; simpl; split.
  - reflexivity.
  - reflexivity.
  - rewrite lookup_insert_ne by discriminate. apply lookup_insert_eq.
  - apply lookup_insert_eq.
Qed.

Lemma injected_keys_overwrite_witness :
  ∃ opts, opts ∈ dispatched Custom (acme msg1) spoof
  ∧ prop (own_enumerable (prop spoof "context")) "company_name" = JStr "Evil Corp"
  ∧ context opts !! "company_name" = Some (JStr "Acme")
  ∧ context opts !! "current_year" = Some (JNum 2025%float).
Proof.
  exists (mailOptions_of Custom (acme msg1) spoof).
  assert (Hin : mailOptions_of Custom (acme msg1) spoof
                ∈ dispatched Custom (acme msg1) spoof).
  { vm_compute. left. }
  split; [exact Hin|]. split; [reflexivity|].
  exact (injected_keys_overwrite Custom (acme msg1) spoof _ Hin).
Defined.

(** ** Validation *)

(** C2. When a required field of an endpoint is absent or empty, the
    handler answers 400 with the error [Missing required fields] and
    leaves the trace as it found it: no transport call, no other effect. *)
Theorem validation_short_circuits ep w req_body t k :
  k ∈ required ep →
  absent_or_empty req_body k →
  handler ep w req_body t = (Normal (validation_failure ep), t)
  ∧ statusCode (validation_failure ep) = 400%Z
  ∧ body (validation_failure ep) !! "error" = Some (JStr "Missing required fields")
  ∧ sent (handler ep w req_body t).2 = sent t.
Proof.
  intros Hk Ha.
  pose proof (required_falsy_invalid ep req_body k Hk
                (absent_or_empty_falsy _ _ Ha)) as Hv.
  rewrite (handler_invalid _ w _ t Hv).
  repeat split.
Qed.

Lemma validation_short_circuits_witness :
  send_email (acme msg1) only_to [] = (Normal (validation_failure Custom), [])
  ∧ statusCode (validation_failure Custom) = 400%Z
  ∧ body (validation_failure Custom) !! "error"
    = Some (JStr "Missing required fields")
  ∧ sent (send_email (acme msg1) only_to []).2 = sent [].
Proof.
  apply (validation_short_circuits Custom (acme msg1) only_to [] "subject").
  - vm_compute. right. left.
  - left. reflexivity.
Defined.

(** ** Success and failure of the transport *)

(** A truthy value is serialised to some value: only [undefined] is left
    out, and it is falsy. *)
Lemma truthy_json_value v : truthy v = true → ∃ j, json_value v = Some j.
Proof. destruct v; simpl; try discriminate; eauto. Qed.

Lemma valid_to_truthy ep req_body :
  passes_validation ep req_body = true → truthy (prop req_body "to") = true.
Proof.
  unfold passes_validation. destruct ep; simpl;
    destruct (truthy (prop req_body "to")); done.
Qed.

(** The success body once the recipient is serialised. *)
Lemma success_response_body ep info req_body j :
  json_value (prop req_body "to") = Some j →
  success_response ep info req_body =
  {| statusCode := 200;
     body := object [
       ("success", JBool true);
       ("message", JStr (success_message ep));
       ("messageId", JStr (messageId info));
       ("recipient", j)] |}.
Proof.
  intros Hj. unfold success_response, to_json, object; simpl.
  rewrite (omap_insert_Some _ _ _ _ j Hj). reflexivity.
Qed.




(** C4. When validation passes and the transport rejects with an error,
    the handler completes normally (nothing is thrown past it) with
    status 500 and the error's message as the [message] of the body; the
    transport was called once, and the error was logged once. *)
Theorem failure_reported_once ep w req_body t d :
  passes_validation ep req_body = true →
  transport w (mailOptions_of ep w req_body) = Rejected {| message := d |} →
  handler ep w req_body t =
    (Normal {| statusCode := 500;
               body := object [
                 ("error", JStr "Email sending failed");
                 ("message", JStr d)] |},
     t ++ [EvSendMail (mailOptions_of ep w req_body);
           EvConsoleError "Email sending failed:" {| message := d |}])
  ∧ body (failure_response {| message := d |}) !! "message" = Some (JStr d).
Proof.
  intros Hv Ht.
  rewrite (handler_rejected _ _ _ _ _ Hv Ht). split; reflexivity.
Qed.

Lemma failure_reported_once_witness :
  send_email (acme refused) spoof [] =
    (Normal {| statusCode := 500;
               body := object [
                 ("error", JStr "Email sending failed");
                 ("message", JStr "connect ECONNREFUSED 127.0.0.1:465")] |},
     [EvSendMail (mailOptions_of Custom (acme refused) spoof);
      EvConsoleError "Email sending failed:"
        {| message := "connect ECONNREFUSED 127.0.0.1:465" |}])
  ∧ body (failure_response {| message := "connect ECONNREFUSED 127.0.0.1:465" |})
      !! "message" = Some (JStr "connect ECONNREFUSED 127.0.0.1:465").
Proof.
  apply (failure_reported_once Custom (acme refused) spoof []
           "connect ECONNREFUSED 127.0.0.1:465"); reflexivity.
Defined.

(** ** The welcome message *)

(** C5, as stated, fails on a request whose [verificationLink] is the
    empty string: the field is present, yet the context carries the
    placeholder and not the field. *)
Lemma welcome_empty_link_not_verbatim :
  passes_validation Welcome john_empty_link = true
  ∧ john_empty_link !! "verificationLink" = Some (JStr "")
  ∧ dispatched Welcome (acme msg1) john_empty_link
    = [mailOptions_of Welcome (acme msg1) john_empty_link]
  ∧ context (mailOptions_of Welcome (acme msg1) john_empty_link)
      !! "verification_link" = Some (JStr "#")
  ∧ context (mailOptions_of Welcome (acme msg1) john_empty_link)
      !! "verification_link"
    ≠ Some (verification_link_if_present john_empty_link).
Proof.
  split; [reflexivity|]. split; [reflexivity|].
  split; [vm_compute; reflexivity|]. split; [reflexivity|].
  vm_compute. discriminate.
Qed.

(** C5, amended. A valid welcome request hands exactly one message to the
    transport: [from] and [replyTo] come from the configuration, [to]
    from the request, the subject and the template name are the fixed
    literals, and the context has exactly the four keys [username]
    (verbatim), [verification_link] (the request's [verificationLink]
    when it is truthy, the placeholder otherwise), [company_name] and
    [current_year]. *)
Theorem welcome_message_shape w req_body :
  passes_validation Welcome req_body = true →
  ∃ opts,
    dispatched Welcome w req_body = [opts]
    ∧ from opts = env w "EMAIL_FROM"
    ∧ replyTo opts = env w "EMAIL_REPLY_TO"
    ∧ to opts = prop req_body "to"
    ∧ subject opts = JStr "Welcome to Our Platform!"
    ∧ template opts = JStr "welcome"
    ∧ dom (context opts)
      = {[ "username"; "verification_link"; "company_name"; "current_year" ]}
    ∧ context opts !! "username" = Some (prop req_body "username")
    ∧ context opts !! "verification_link"
      = Some (if truthy (prop req_body "verificationLink")
              then prop req_body "verificationLink" else JStr "#")
    ∧ context opts !! "company_name" = Some (env w "COMPANY_NAME")
    ∧ context opts !! "current_year" = Some (JNum (getFullYear w)).
Proof.
  intros Hv. exists (mailOptions_of Welcome w req_body).
  rewrite dispatched_spec, Hv.
  repeat (split; [reflexivity|]). reflexivity.
Qed.

Lemma welcome_message_shape_witness :
  ∃ opts,
    dispatched Welcome (acme msg1) john = [opts]
    ∧ from opts = JStr "noreply@acme.test"
    ∧ context opts !! "verification_link"
      = Some (JStr "https://app/verify?token=abc123").
Proof.
  destruct (welcome_message_shape (acme msg1) john eq_refl)
    as (opts & Hd & Hfrom & _ & _ & _ & _ & _ & _ & Hlink & _).
  exists opts. repeat split; assumption.
Defined.

(** C9. A valid welcome request whose [verificationLink] is present but
    falsy is dispatched with the placeholder as [verification_link], and
    the message is the very one dispatched when the field is absent. *)
Theorem falsy_link_is_placeholder w req_body v :
  passes_validation Welcome req_body = true →
  req_body !! "verificationLink" = Some v →
  truthy v = false →
  ∃ opts,
    dispatched Welcome w req_body = [opts]
    ∧ context opts !! "verification_link" = Some (JStr "#")
    ∧ dispatched Welcome w (delete "verificationLink" req_body) = [opts].
Proof.
  intros Hv Hl Hf. exists (mailOptions_of Welcome w req_body).
  assert (Hv' : passes_validation Welcome (delete "verificationLink" req_body)
                = true).
  { revert Hv. unfold passes_validation, prop; simpl.
    rewrite !lookup_delete_ne by discriminate. tauto. }
  rewrite !dispatched_spec, Hv, Hv'.
  split; [reflexivity|].
  assert (Hor : js_or (prop req_body "verificationLink") (JStr "#") = JStr "#").
  { unfold js_or, prop. rewrite Hl; simpl. rewrite Hf. reflexivity. }
  split.
  - simpl. rewrite Hor. reflexivity.
  - simpl. unfold welcome_mailOptions, prop.
    rewrite !lookup_delete_ne by discriminate. rewrite lookup_delete_eq.
    fold (prop req_body "verificationLink"). rewrite Hor. reflexivity.
Qed.

Lemma falsy_link_is_placeholder_witness :
  ∃ opts,
    dispatched Welcome (acme msg1) john_empty_link = [opts]
    ∧ context opts !! "verification_link" = Some (JStr "#")
    ∧ dispatched Welcome (acme msg1) (delete "verificationLink" john_empty_link)
      = [opts].
Proof.
  apply (falsy_link_is_placeholder (acme msg1) john_empty_link (JStr ""));
    reflexivity.
Defined.

(** ** The company name *)

(** C6. With [COMPANY_NAME] unset the handlers apply no default: the
    [company_name] of the context is [undefined], not a string. *)
Theorem company_name_unset_is_undefined :
  process_env (bare msg1) !! "COMPANY_NAME" = None
  ∧ dispatched Welcome (bare msg1) john
    = [mailOptions_of Welcome (bare msg1) john]
  ∧ context (mailOptions_of Welcome (bare msg1) john) !! "company_name"
    = Some JUndefined
  ∧ dispatched Custom (bare msg1) spoof
    = [mailOptions_of Custom (bare msg1) spoof]
  ∧ context (mailOptions_of Custom (bare msg1) spoof) !! "company_name"
    = Some JUndefined.
Proof. repeat split; vm_compute; reflexivity. Qed.

(** The same on every request: an unset variable reaches the context as
    [undefined]. *)
Lemma company_name_unset ep w req_body opts :
  process_env w !! "COMPANY_NAME" = None →
  opts ∈ dispatched ep w req_body →
  context opts !! "company_name" = Some JUndefined.
Proof.
  intros He. rewrite dispatched_spec.
  destruct (passes_validation ep req_body); [|by intros ?%elem_of_nil].
  intros ->%list_elem_of_singleton.
  assert (Hu : env w "COMPANY_NAME" = JUndefined) by (unfold env; by rewrite He).
  destruct ep; simpl; rewrite Hu.
  - reflexivity.
  - rewrite lookup_insert_ne by discriminate. apply lookup_insert_eq.
Qed.

(** ** The secure flag *)

(** C7. The [secure] option of the transporter is [true] exactly when
    [EMAIL_SECURE] is the string [true], and [false] for every other
    value and when the variable is unset. *)
Theorem secure_iff_exact_true w :
  secure (transporter w)
  = JBool (bool_decide (process_env w !! "EMAIL_SECURE" = Some "true")).
Proof.
  unfold transporter, env, js_or, strict_equals_str; cbn [secure truthy].
  destruct (process_env w !! "EMAIL_SECURE") as [s|].
  - case_bool_decide as Hd; destruct (String.eqb_spec s "true") as [->|Hne];
      congruence.
  - case_bool_decide; [discriminate | reflexivity].
Qed.

Example secure_uppercase :
  secure (transporter {| process_env := {[ "EMAIL_SECURE" := "TRUE" ]};
                         getFullYear := 2025%float;
                         toISOString := "";
                         transport := always msg1 |}) = JBool false.
Proof. reflexivity. Qed.

Example secure_one :
  secure (transporter {| process_env := {[ "EMAIL_SECURE" := "1" ]};
                         getFullYear := 2025%float;
                         toISOString := "";
                         transport := always msg1 |}) = JBool false.
Proof. reflexivity. Qed.

Example secure_unset : secure (transporter (bare msg1)) = JBool false.
Proof. reflexivity. Qed.

Example secure_set : secure (transporter (acme msg1)) = JBool true.
Proof. reflexivity. Qed.

(** ** Routing *)



(** A path that cannot be decoded is not answered by the catch-all: the
    final handler answers 400. *)
Lemma undecodable_path_is_400 (matches : Matcher) w req req_body t :
  parsed req = Populated req_body →
  catch_all matches req = false →
  unrouted matches req = true →
  app matches w req t = (Normal {| statusCode := 400; body := ∅ |}, t).
Proof.
  intros Hp Hc Hu. unfold app, unrouted in *. rewrite Hp, Hc.
  destruct (matches GET "/health" req); [discriminate|].
  destruct (matches POST "/send-welcome-email" req); [discriminate|].
  destruct (matches POST "/send-email" req); [discriminate|].
  reflexivity.
Qed.


(** A request that a route takes is not answered by the catch-all. *)
Example health_routed :
  (app exact_route (acme msg1)
     {| method := GET; originalUrl := "/health"; parsed := Populated ∅ |} []).1
  = Normal {| statusCode := 200;
              body := object [
                ("status", JStr "OK");
                ("message", JStr "Email service is running");
                ("timestamp", JStr "2025-08-07T10:30:00.000Z")] |}.
Proof. reflexivity. Qed.

(** ** Determinism *)

(** The message an endpoint builds reads the world through
    [process.env] and the year only. *)
Lemma mailOptions_of_world ep w1 w2 req_body :
  process_env w1 = process_env w2 →
  getFullYear w1 = getFullYear w2 →
  mailOptions_of ep w1 req_body = mailOptions_of ep w2 req_body.
Proof.
  intros He Hy.
  destruct ep; unfold mailOptions_of, welcome_mailOptions, custom_mailOptions, env;
    rewrite He, Hy; reflexivity.
Qed.

(** C10. With the same configuration, the same year and a transport that
    replies alike, two invocations of an endpoint on equal bodies answer
    with the same status and the same body, whatever happened before
    each of them. *)
Theorem response_deterministic ep w1 w2 body1 body2 t1 t2 :
  process_env w1 = process_env w2 →
  getFullYear w1 = getFullYear w2 →
  (∀ m, transport w1 m = transport w2 m) →
  body1 = body2 →
  (handler ep w1 body1 t1).1 = (handler ep w2 body2 t2).1.
Proof.
  intros He Hy Ht <-.
  destruct (passes_validation ep body1) eqn:Hv.
  - destruct (transport w1 (mailOptions_of ep w1 body1)) as [info|error] eqn:Hr.
    + assert (Hr2 : transport w2 (mailOptions_of ep w2 body1) = Resolved info).
      { rewrite <- (mailOptions_of_world ep w1 w2 body1 He Hy), <- Ht. exact Hr. }
      rewrite (handler_resolved _ _ _ t1 _ Hv Hr),
              (handler_resolved _ _ _ t2 _ Hv Hr2). reflexivity.
    + assert (Hr2 : transport w2 (mailOptions_of ep w2 body1) = Rejected error).
      { rewrite <- (mailOptions_of_world ep w1 w2 body1 He Hy), <- Ht. exact Hr. }
      rewrite (handler_rejected _ _ _ t1 _ Hv Hr),
              (handler_rejected _ _ _ t2 _ Hv Hr2). reflexivity.
  - rewrite (handler_invalid _ w1 _ t1 Hv), (handler_invalid _ w2 _ t2 Hv).
    reflexivity.
Qed.

Lemma response_deterministic_witness :
  (send_welcome_email (acme msg1) john []).1
  = (send_welcome_email (acme_later msg1) john
       [EvConsoleError "Email sending failed:"
          {| message := "connect ECONNREFUSED 127.0.0.1:465" |}]).1.
Proof.
  apply (response_deterministic Welcome (acme msg1) (acme_later msg1) john john);
    reflexivity.
Defined.

(** * Further properties of the handlers *)

(** ** The outcome of a handler in one equation *)

Lemma handler_outcome ep w req_body t :
  handler ep w req_body t =
  if passes_validation ep req_body then
    match transport w (mailOptions_of ep w req_body) with
    | Resolved info =>
        (Normal (success_response ep info req_body),
         t ++ [EvSendMail (mailOptions_of ep w req_body)])
    | Rejected error =>
        (Normal (failure_response error),
         t ++ [EvSendMail (mailOptions_of ep w req_body);
               EvConsoleError "Email sending failed:" error])
    end
  else (Normal (validation_failure ep), t).
Proof.
  destruct (passes_validation ep req_body) eqn:Hv.
  - destruct (transport w (mailOptions_of ep w req_body)) eqn:Ht.
    + by apply handler_resolved.
    + by apply handler_rejected.
  - by apply handler_invalid.
Qed.

Lemma sent_app t1 t2 : sent (t1 ++ t2) = sent t1 ++ sent t2.
Proof. apply omap_app. Qed.

Lemma passes_validation_false ep req_body :
  passes_validation ep req_body = false
  ↔ ∃ k, k ∈ required ep ∧ truthy (prop req_body k) = false.
Proof.
  split.
  - unfold passes_validation. destruct ep; simpl; intros Hf.
    + destruct (truthy (prop req_body "to")) eqn:E1;
        [destruct (truthy (prop req_body "username")) eqn:E2; [discriminate|]|];
        eexists; (split; [|eassumption]); set_solver.
    + destruct (truthy (prop req_body "to")) eqn:E1;
        [destruct (truthy (prop req_body "subject")) eqn:E2;
          [destruct (truthy (prop req_body "template")) eqn:E3; [discriminate|]|]|];
        eexists; (split; [|eassumption]); set_solver.
  - intros (k & Hk & Hf). by eapply required_falsy_invalid.
Qed.

(** ** Responses *)

(** X1. A dispatch handler never throws: whatever the body and whatever
    the transport does, it answers, with status 200, 400 or 500.  A 200
    body has exactly the keys [success], [message], [messageId] and
    [recipient]; a 400 or 500 body has exactly [error] and [message]. *)
Theorem handler_always_answers ep w req_body t :
  ∃ resp,
    (handler ep w req_body t).1 = Normal resp
    ∧ (statusCode resp = 200%Z
       ∧ dom (body resp) = {[ "success"; "message"; "messageId"; "recipient" ]}
       ∨ (statusCode resp = 400%Z ∨ statusCode resp = 500%Z)
         ∧ dom (body resp) = {[ "error"; "message" ]}).
Proof.
  rewrite handler_outcome.
  destruct (passes_validation ep req_body) eqn:Hv;
    [destruct (transport w (mailOptions_of ep w req_body)) as [info|error]|];
    eexists; (split; [reflexivity|]).
  - left.
    destruct (truthy_json_value _ (valid_to_truthy _ _ Hv)) as [j Hj].
    rewrite (success_response_body _ _ _ j Hj). split; reflexivity.
  - right. split; [right|]; reflexivity.
  - right. split; [left|]; reflexivity.
Qed.

(** X2. The status tells what happened: 400 exactly when a required
    field is falsy, 200 exactly when every required field is truthy and
    the transport resolved, 500 exactly when every required field is
    truthy and the transport rejected. *)
Theorem handler_status ep w req_body t resp :
  (handler ep w req_body t).1 = Normal resp →
  (statusCode resp = 400%Z
   ↔ ∃ k, k ∈ required ep ∧ truthy (prop req_body k) = false)
  ∧ (statusCode resp = 200%Z
     ↔ (∀ k, k ∈ required ep → truthy (prop req_body k) = true)
       ∧ ∃ info, transport w (mailOptions_of ep w req_body) = Resolved info)
  ∧ (statusCode resp = 500%Z
     ↔ (∀ k, k ∈ required ep → truthy (prop req_body k) = true)
       ∧ ∃ error, transport w (mailOptions_of ep w req_body) = Rejected error).
Proof.
  assert (Hall : passes_validation ep req_body = true
                 ↔ ∀ k, k ∈ required ep → truthy (prop req_body k) = true).
  { unfold passes_validation. rewrite forallb_forall.
    split; intros H k Hk; apply H; by apply list_elem_of_In. }
  rewrite <- Hall, <- passes_validation_false, handler_outcome.
  destruct (passes_validation ep req_body);
    [destruct (transport w (mailOptions_of ep w req_body)) as [info|error]|];
    simpl; intros [= <-]; simpl; repeat split;
    try discriminate; try (intros [? _]; discriminate);
    try (intros [_ [? ?]]; discriminate); eauto.
Qed.

Lemma handler_status_witness :
  (statusCode (success_response Welcome {| messageId := "msg-1" |} john) = 400%Z
   ↔ ∃ k, k ∈ required Welcome ∧ truthy (prop john k) = false)
  ∧ (statusCode (success_response Welcome {| messageId := "msg-1" |} john) = 200%Z
     ↔ (∀ k, k ∈ required Welcome → truthy (prop john k) = true)
       ∧ ∃ info, transport (acme msg1) (mailOptions_of Welcome (acme msg1) john)
                 = Resolved info)
  ∧ (statusCode (success_response Welcome {| messageId := "msg-1" |} john) = 500%Z
     ↔ (∀ k, k ∈ required Welcome → truthy (prop john k) = true)
       ∧ ∃ error, transport (acme msg1) (mailOptions_of Welcome (acme msg1) john)
                  = Rejected error).
Proof.
  apply (handler_status Welcome (acme msg1) john []). reflexivity.
Defined.

(** ** Effects of a handler *)

Lemma handler_trace ep w req_body t :
  (handler ep w req_body t).2 = t ++ emitted (handler ep w req_body).
Proof.
  unfold emitted. rewrite !handler_outcome.
  destruct (passes_validation ep req_body);
    [destruct (transport w (mailOptions_of ep w req_body))|]; simpl;
    by rewrite ?app_nil_r.
Qed.

(** X3. A handler only appends to the trace, and what it appends holds
    at most one transport call: one request, at most one message. *)
Theorem handler_appends_one_call ep w req_body t :
  (handler ep w req_body t).2 = t ++ emitted (handler ep w req_body)
  ∧ sent (handler ep w req_body t).2 = sent t ++ dispatched ep w req_body
  ∧ length (dispatched ep w req_body) ≤ 1.
Proof.
  split; [apply handler_trace|]. split.
  - rewrite handler_trace, sent_app. reflexivity.
  - rewrite dispatched_spec. destruct (passes_validation ep req_body); simpl; lia.
Qed.

(** X4. The service keeps no memory of a request: the same valid request
    handled again hands the same message to the transport again. *)
Theorem repeated_request_is_sent_again ep w req_body t :
  passes_validation ep req_body = true →
  sent (handler ep w req_body (handler ep w req_body t).2).2
  = sent t ++ [mailOptions_of ep w req_body; mailOptions_of ep w req_body].
Proof.
  intros Hv.
  rewrite (handler_trace ep w req_body (handler _ _ _ _).2), handler_trace.
  rewrite !sent_app.
  change (sent (emitted (handler ep w req_body))) with (dispatched ep w req_body).
  rewrite dispatched_spec, Hv, <- app_assoc. reflexivity.
Qed.

Lemma repeated_request_is_sent_again_witness :
  sent (send_welcome_email (acme msg1) john
          (send_welcome_email (acme msg1) john []).2).2
  = [mailOptions_of Welcome (acme msg1) john;
     mailOptions_of Welcome (acme msg1) john].
Proof.
  apply (repeated_request_is_sent_again Welcome (acme msg1) john []).
  reflexivity.
Defined.

(** ** What a handler reads of the body *)

Lemma prop_agree (b1 b2 : gmap string JsValue) k :
  b1 !! k = b2 !! k → prop b1 k = prop b2 k.
Proof. unfold prop. by intros ->. Qed.

(** X5. A handler reads only the fields it destructures: two bodies that
    agree on them get the same answer and cause the same effects,
    whatever else they carry. *)
Theorem unread_fields_ignored ep w (body1 body2 : gmap string JsValue) t :
  (∀ k, k ∈ reads ep → body1 !! k = body2 !! k) →
  handler ep w body1 t = handler ep w body2 t.
Proof.
  intros Hag.
  assert (Hp : ∀ k, k ∈ reads ep → prop body1 k = prop body2 k).
  { intros k Hk. apply prop_agree, Hag, Hk. }
  rewrite !handler_outcome.
  assert (Hv : passes_validation ep body1 = passes_validation ep body2).
  { unfold passes_validation.
    destruct ep; simpl; rewrite ?(Hp "to"), ?(Hp "username"),
      ?(Hp "subject"), ?(Hp "template") by set_solver; reflexivity. }
  assert (Hm : mailOptions_of ep w body1 = mailOptions_of ep w body2).
  { destruct ep; simpl; rewrite ?(Hp "to"), ?(Hp "username"),
      ?(Hp "verificationLink"), ?(Hp "subject"), ?(Hp "template"),
      ?(Hp "context") by set_solver; reflexivity. }
  assert (Hs : ∀ info, success_response ep info body1
                       = success_response ep info body2).
  { intros info. unfold success_response.
    rewrite (Hp "to") by (destruct ep; set_solver). reflexivity. }
  rewrite Hv, Hm. destruct (passes_validation ep body2); [|reflexivity].
  destruct (transport w (mailOptions_of ep w body2)); by rewrite ?Hs.
Qed.

Lemma unread_fields_ignored_witness :
  john !! "from" = None
  ∧ john_extra !! "from" = Some (JStr "ceo@evil.test")
  ∧ send_welcome_email (acme msg1) john []
    = send_welcome_email (acme msg1) john_extra [].
Proof.
  split; [reflexivity|]. split; [reflexivity|].
  apply (unread_fields_ignored Welcome (acme msg1) john john_extra []).
  intros k Hk. simpl in Hk. set_unfold in Hk.
  destruct Hk as [-> | [-> | [-> | []]]]; reflexivity.
Defined.

(** X6. A required field whose value is falsy (null, false, zero, NaN,
    the empty string) is rejected exactly like a missing one: status
    400, and nothing is handed to the transport. *)
Theorem falsy_required_rejected ep w (req_body : gmap string JsValue) t k v :
  k ∈ required ep →
  req_body !! k = Some v →
  truthy v = false →
  handler ep w req_body t = (Normal (validation_failure ep), t).
Proof.
  intros Hk Hl Hf. apply handler_invalid.
  apply (required_falsy_invalid ep req_body k Hk).
  unfold prop. by rewrite Hl.
Qed.

Lemma falsy_required_rejected_witness :
  send_welcome_email (acme msg1) null_recipient []
  = (Normal (validation_failure Welcome), []).
Proof.
  apply (falsy_required_rejected Welcome (acme msg1) null_recipient [] "to" JNull).
  - vm_compute. left.
  - reflexivity.
  - reflexivity.
Defined.

(** ** The context of a custom message *)

(** The message of a valid custom request, the only one dispatched. *)
Lemma dispatched_custom w req_body opts :
  opts ∈ dispatched Custom w req_body →
  opts = mailOptions_of Custom w req_body.
Proof.
  rewrite dispatched_spec.
  destruct (passes_validation Custom req_body); [|by intros ?%elem_of_nil].
  by intros ->%list_elem_of_singleton.
Qed.

(** X7. When the context of a custom request is an object, every key
    of it other than the two injected ones reaches the transport with
    the caller's value, and the context has no key besides the caller's
    and the two injected ones. *)
Theorem caller_context_passes_through w (req_body : gmap string JsValue) m opts :
  opts ∈ dispatched Custom w req_body →
  req_body !! "context" = Some (JObj m) →
  (∀ k, k ≠ "company_name" → k ≠ "current_year" →
        context opts !! k = m !! k)
  ∧ dom (context opts) = dom m ∪ {[ "company_name"; "current_year" ]}.
Proof.
  intros ->%dispatched_custom Hc. simpl. unfold prop. rewrite Hc. simpl. split.
  - intros k H1 H2. by rewrite !lookup_insert_ne.
  - rewrite !dom_insert_L. apply set_eq. intros x.
    rewrite !elem_of_union, !elem_of_singleton. tauto.
Qed.

Lemma caller_context_passes_through_witness :
  context (mailOptions_of Custom (acme msg1) spoof) !! "username"
  = Some (JStr "Ann")
  ∧ dom (context (mailOptions_of Custom (acme msg1) spoof))
    = {[ "username"; "company_name"; "current_year" ]}.
Proof.
  assert (Hin : mailOptions_of Custom (acme msg1) spoof
                ∈ dispatched Custom (acme msg1) spoof).
  { vm_compute. left. }
  destruct (caller_context_passes_through (acme msg1) spoof _ _ Hin eq_refl)
    as [Hk Hd].
  split.
  - rewrite Hk by discriminate. reflexivity.
  - rewrite Hd. vm_compute. reflexivity.
Defined.

(** X8. A custom request without a context, or whose context is null, a
    boolean or a number, is dispatched with a context of exactly the two
    injected keys. *)
Theorem missing_context_is_injected_only w (req_body : gmap string JsValue) opts :
  opts ∈ dispatched Custom w req_body →
  req_body !! "context" = None
  ∨ req_body !! "context" = Some JNull
  ∨ (∃ b, req_body !! "context" = Some (JBool b))
  ∨ (∃ n, req_body !! "context" = Some (JNum n)) →
  context opts = object [
    ("company_name", env w "COMPANY_NAME");
    ("current_year", JNum (getFullYear w))
  ].
Proof.
  intros ->%dispatched_custom Hc. simpl. unfold prop.
  destruct Hc as [-> | [-> | [[b ->] | [n ->]]]]; reflexivity.
Qed.

Lemma missing_context_is_injected_only_witness :
  context (mailOptions_of Custom (acme msg1) no_context)
  = object [("company_name", JStr "Acme"); ("current_year", JNum 2025%float)].
Proof.
  apply (missing_context_is_injected_only (acme msg1) no_context).
  - vm_compute. left.
  - left. reflexivity.
Defined.

(** Decimal numerals never begin with the letter c. *)
Definition begins_with_c (s : string) : Prop :=
  match s with
  | String "c"%char _ => True
  | _ => False
  end.

Lemma pretty_N_go_not_c x s :
  ¬ begins_with_c s → ¬ begins_with_c (pretty_N_go x s).
Proof.
  revert s. induction (N.lt_wf_0 x) as [x _ IH]; intros s Hs.
  assert (x = 0 ∨ 0 < x)%N as [->|Hx] by lia.
  - by rewrite pretty_N_go_0.
  - rewrite pretty_N_go_step by done. apply IH.
    { by apply N.div_lt. }
    unfold pretty_N_char. repeat case_match; simpl; intros [].
Qed.

Lemma pretty_nat_not_c (i : nat) : ¬ begins_with_c (pretty i).
Proof.
  unfold pretty, pretty_nat, pretty, pretty_N.
  case_decide; [simpl; intros []|]. apply pretty_N_go_not_c. simpl; intros [].
Qed.

(** The properties of a spread list are its elements under their
    decimal indices. *)
Lemma lookup_indexed {A} (f : A → JsValue) (l : list A) (n i : nat) :
  (list_to_map (imap (λ j x, (pretty (n + j), f x)) l) : gmap string JsValue)
    !! pretty (n + i)
  = f <$> l !! i.
Proof.
  revert n i. induction l as [|x l IH]; intros n i; [done|].
  rewrite imap_cons. simpl list_to_map. destruct i as [|i].
  - by rewrite lookup_insert_eq.
  - rewrite lookup_insert_ne by (intros ?%(inj pretty); lia).
    rewrite (imap_ext _ (λ j y, (pretty (S n + j), f y))).
    + replace (n + S i) with (S n + i) by lia. apply IH.
    + intros j y _. simpl. by rewrite Nat.add_succ_r.
Qed.

(** X9. A context that is an array is spread by index: element [i] of
    the array is the value of the key that is the decimal numeral of
    [i], and a key beyond the length is absent. *)
Theorem array_context_is_indexed w (req_body : gmap string JsValue) l opts i :
  opts ∈ dispatched Custom w req_body →
  req_body !! "context" = Some (JArr l) →
  context opts !! pretty i = l !! i.
Proof.
  intros ->%dispatched_custom Hc. simpl. unfold prop. rewrite Hc. simpl.
  pose proof (pretty_nat_not_c i) as Hn.
  rewrite !lookup_insert_ne by (intros E; rewrite <- E in Hn; by apply Hn).
  etrans; [exact (lookup_indexed (λ x : JsValue, x) l 0 i)|].
  by destruct (l !! i).
Qed.

Lemma array_context_is_indexed_witness :
  context (mailOptions_of Custom (acme msg1) list_context) !! "1"
  = Some (JStr "Bob")
  ∧ context (mailOptions_of Custom (acme msg1) list_context) !! "2" = None.
Proof.
  assert (Hin : mailOptions_of Custom (acme msg1) list_context
                ∈ dispatched Custom (acme msg1) list_context).
  { vm_compute. left. }
  split.
  - exact (array_context_is_indexed (acme msg1) list_context
             [JStr "Ann"; JStr "Bob"] _ 1 Hin eq_refl).
  - exact (array_context_is_indexed (acme msg1) list_context
             [JStr "Ann"; JStr "Bob"] _ 2 Hin eq_refl).
Defined.

(** X10. A valid custom request hands exactly one message to the
    transport; its [from] and [replyTo] come from the configuration,
    also when the body carries fields of those names, and its [to],
    [subject] and [template] are the fields of the body as they are. *)
Theorem custom_message_shape w req_body :
  passes_validation Custom req_body = true →
  ∃ opts,
    dispatched Custom w req_body = [opts]
    ∧ from opts = env w "EMAIL_FROM"
    ∧ replyTo opts = env w "EMAIL_REPLY_TO"
    ∧ to opts = prop req_body "to"
    ∧ subject opts = prop req_body "subject"
    ∧ template opts = prop req_body "template".
Proof.
  intros Hv. exists (mailOptions_of Custom w req_body).
  rewrite dispatched_spec, Hv. repeat split.
Qed.

Lemma custom_message_shape_witness :
  ∃ opts,
    dispatched Custom (acme msg1) (<["from" := JStr "ceo@evil.test"]> spoof)
    = [opts]
    ∧ from opts = JStr "noreply@acme.test"
    ∧ subject opts = JStr "Hello".
Proof.
  assert (Hv : passes_validation Custom (<["from" := JStr "ceo@evil.test"]> spoof)
               = true) by (vm_compute; reflexivity).
  destruct (custom_message_shape (acme msg1)
              (<["from" := JStr "ceo@evil.test"]> spoof) Hv)
    as (opts & Hd & Hf & _ & _ & Hs & _).
  exists opts. repeat split; assumption.
Defined.

(** * Further properties of the application *)

Lemma send_welcome_email_handler w req_body :
  send_welcome_email w req_body = handler Welcome w req_body.
Proof. reflexivity. Qed.

Lemma send_email_handler w req_body :
  send_email w req_body = handler Custom w req_body.
Proof. reflexivity. Qed.



(** X12. Mail leaves only through the two send routes: when a request
    makes the application call the transport, its payload was parsed,
    the health route did not take it, one of the two send routes did,
    every required field of that route is truthy, and the call carries
    the message of that route. *)
Theorem mail_only_from_send_routes (matches : Matcher) w req t :
  sent (app matches w req t).2 ≠ sent t →
  ∃ req_body ep,
    parsed req = Populated req_body
    ∧ matches GET "/health" req = false
    ∧ matches POST (route_of ep) req = true
    ∧ (∀ k, k ∈ required ep → truthy (prop req_body k) = true)
    ∧ sent (app matches w req t).2 = sent t ++ [mailOptions_of ep w req_body].
Proof.
  assert (Hall : ∀ ep b, passes_validation ep b = true →
                 ∀ k, k ∈ required ep → truthy (prop b k) = true).
  { intros ep b H k Hk. unfold passes_validation in H.
    rewrite forallb_forall in H. by apply H, list_elem_of_In. }
  unfold app.
  destruct (parsed req) as [req_body|error] eqn:Hp.
  - destruct (matches GET "/health" req) eqn:Hh; [by intros []|].
    destruct (matches POST "/send-welcome-email" req) eqn:Hw.
    + rewrite send_welcome_email_handler, handler_trace, sent_app.
      change (sent (emitted (handler Welcome w req_body)))
        with (dispatched Welcome w req_body).
      rewrite dispatched_spec.
      destruct (passes_validation Welcome req_body) eqn:Hv.
      * intros _. exists req_body, Welcome. eauto 10.
      * rewrite app_nil_r. by intros [].
    + destruct (matches POST "/send-email" req) eqn:Hc;
        [|by destruct (catch_all matches req); intros []].
      rewrite send_email_handler, handler_trace, sent_app.
      change (sent (emitted (handler Custom w req_body)))
        with (dispatched Custom w req_body).
      rewrite dispatched_spec.
      destruct (passes_validation Custom req_body) eqn:Hv.
      * intros _. exists req_body, Custom. eauto 10.
      * rewrite app_nil_r. by intros [].
  - simpl. rewrite sent_app. simpl. rewrite app_nil_r. by intros [].
Qed.

Lemma mail_only_from_send_routes_witness :
  ∃ req_body ep,
    parsed (post_welcome john) = Populated req_body
    ∧ exact_route GET "/health" (post_welcome john) = false
    ∧ exact_route POST (route_of ep) (post_welcome john) = true
    ∧ (∀ k, k ∈ required ep → truthy (prop req_body k) = true)
    ∧ sent (app exact_route (acme msg1) (post_welcome john) []).2
      = sent [] ++ [mailOptions_of ep (acme msg1) req_body].
Proof.
  apply (mail_only_from_send_routes exact_route (acme msg1) (post_welcome john) []).
  vm_compute. discriminate.
Defined.



(** ** Configuration defaults *)

(** X14. The host of the transporter and the listening port are never
    missing: each is the value of its variable when that is set and not
    empty (the port then is a string, as the environment has it), and
    its default, [smtp.googlemail.com] and the number 4000, when the
    variable is unset or empty. *)
Theorem host_and_port_defaults w :
  host (transporter w)
  = match process_env w !! "EMAIL_HOST" with
    | Some s => if decide (s = "") then JStr "smtp.googlemail.com" else JStr s
    | None => JStr "smtp.googlemail.com"
    end
  ∧ PORT w
    = match process_env w !! "PORT" with
      | Some s => if decide (s = "") then JNum 4000%float else JStr s
      | None => JNum 4000%float
      end
  ∧ truthy (host (transporter w)) = true
  ∧ truthy (PORT w) = true.
Proof.
  unfold transporter, PORT, env, js_or; cbn [host].
  destruct (process_env w !! "EMAIL_HOST") as [h|],
    (process_env w !! "PORT") as [p|]; simpl;
    repeat match goal with
      | |- context [String.eqb ?s ""] =>
          destruct (String.eqb_spec s "") as [->|?]; simpl
      | |- context [decide (?s = "")] => destruct (decide (s = "")); simpl
      end;
    repeat split; try congruence;
    repeat match goal with
      | |- context [String.eqb ?s ""] =>
          destruct (String.eqb_spec s "") as [->|?]; simpl
      end; congruence.
Qed.

(** * Properties of the transporter's port *)

Example parseInt10_examples :
  parseInt10 "587" = 587%float
  ∧ parseInt10 "  25" = 25%float
  ∧ parseInt10 "465/tcp" = 465%float
  ∧ parseInt10 "+3" = 3%float
  ∧ parseInt10 "-0" = (-0)%float
  ∧ parseInt10 "0x10" = 0%float
  ∧ parseInt10 "undefined" = nan
  ∧ parseInt10 "9007199254740993" = 9007199254740992%float.
Proof. repeat split; vm_compute; reflexivity. Qed.

Lemma elem_of_count_from n from fuel :
  (from ≤ n < from + Z.of_nat fuel)%Z → n ∈ count_from from fuel.
Proof.
  revert from. induction fuel as [|fuel IH]; intros from Hn; [lia|].
  simpl. destruct (decide (n = from)) as [->|Hne]; [left|].
  right. apply IH. lia.
Qed.

(** One goal for each of the ten values below ten. *)
Ltac digit_cases r Hr :=
  destruct r as [|r]; [|do 4 (try destruct r as [r|r|])]; try (exfalso; lia).

Lemma digit_char r :
  (r < 10)%N → digit (N_of_ascii (pretty_N_char r)) = Some (Z.of_N r).
Proof.
  intros Hr. digit_cases r Hr; reflexivity.
Qed.

Lemma bytes_String c s : bytes (String c s) = N_of_ascii c :: bytes s.
Proof. reflexivity. Qed.

Lemma leading_digits_pretty_go x s :
  leading_digits (bytes (pretty_N_go x s)) None
  = leading_digits (bytes s) (if decide (x = 0%N) then None else Some (Z.of_N x)).
Proof.
  revert s. induction (N.lt_wf_0 x) as [x _ IH]; intros s.
  destruct (decide (x = 0%N)) as [->|Hx]; [by rewrite pretty_N_go_0|].
  rewrite pretty_N_go_step by lia.
  rewrite IH by (apply N.div_lt; lia).
  rewrite bytes_String. simpl leading_digits.
  rewrite digit_char by (apply N.mod_lt; lia).
  f_equal. f_equal.
  pose proof (N.div_mod x 10 ltac:(lia)) as Hdm.
  destruct (decide ((x `div` 10)%N = 0%N)) as [Hz|Hnz]; simpl; lia.
Qed.

Lemma pretty_go_head x s :
  (0 < x)%N →
  ∃ r rest, (r < 10)%N ∧ pretty_N_go x s = String (pretty_N_char r) rest.
Proof.
  revert s. induction (N.lt_wf_0 x) as [x _ IH]; intros s Hx.
  rewrite pretty_N_go_step by done.
  destruct (decide ((x `div` 10)%N = 0%N)) as [Hz|Hnz].
  - rewrite Hz, pretty_N_go_0. eexists _, _. split; [|reflexivity].
    apply N.mod_lt. lia.
  - apply IH; [apply N.div_lt; lia | by apply N.neq_0_lt_0].
Qed.

Lemma parse_digit_head r l :
  (r < 10)%N →
  trim_start (N_of_ascii (pretty_N_char r) :: l) = N_of_ascii (pretty_N_char r) :: l
  ∧ N_of_ascii (pretty_N_char r) ≠ 45%N
  ∧ N_of_ascii (pretty_N_char r) ≠ 43%N.
Proof.
  intros Hr. digit_cases r Hr;
    (split; [by destruct l as [|b2 [|b3 l3]]|split; discriminate]).
Qed.

Lemma parseInt10_pretty (n : N) :
  parseInt10 (pretty n) = to_number false (Z.of_N n).
Proof.
  unfold pretty, pretty_N. destruct (decide (n = 0%N)) as [->|Hn]; [reflexivity|].
  pose proof (leading_digits_pretty_go n "") as Hd.
  destruct (pretty_go_head n "" ltac:(lia)) as (r & rest & Hr & Hp).
  rewrite Hp in *. unfold parseInt10. rewrite bytes_String in *.
  destruct (parse_digit_head r (bytes rest) Hr) as (-> & H45 & H43).
  destruct (decide (n = 0%N)); [done|].
  destruct (N_of_ascii (pretty_N_char r)) as [|p] eqn:E.
  - rewrite Hd. reflexivity.
  - assert (Hsign : match N.pos p :: bytes rest with
                    | 45%N :: z => (true, z)
                    | 43%N :: z => (false, z)
                    | _ => (false, N.pos p :: bytes rest)
                    end = (false, N.pos p :: bytes rest)).
    { repeat (destruct p as [p|p|]; try reflexivity); congruence. }
    rewrite Hsign, Hd. reflexivity.
Qed.

Lemma ports_usable : forallb usable_port (count_from 1 (Z.to_nat 65535)) = true.
Proof. vm_compute. reflexivity. Qed.

(** X15. The port handed to [createTransport] is always a number other
    than zero and [NaN], whatever [EMAIL_PORT] holds. *)
Theorem port_never_unusable w :
  ∃ x, port w = JNum x ∧ truthy (JNum x) = true.
Proof.
  unfold port, js_or.
  destruct (truthy (JNum (parseInt10 (env_string w "EMAIL_PORT")))) eqn:Ht.
  - eexists. split; [reflexivity | exact Ht].
  - eexists. split; reflexivity.
Qed.

(** X16. When [EMAIL_PORT] is the decimal numeral of a port number, from
    1 to 65535, the port is that number. *)
Theorem port_reads_decimal w (n : N) :
  (1 ≤ n ≤ 65535)%N →
  process_env w !! "EMAIL_PORT" = Some (pretty n) →
  port w = JNum (to_number false (Z.of_N n))
  ∧ PrimFloat.eqb (to_number false (Z.of_N n))
      (PrimFloat.of_uint63 (Uint63.of_Z (Z.of_N n))) = true.
Proof.
  intros Hn He.
  assert (Hu : usable_port (Z.of_N n) = true).
  { pose proof ports_usable as Hall. rewrite forallb_forall in Hall.
    apply Hall, list_elem_of_In, elem_of_count_from. lia. }
  apply andb_true_iff in Hu as [Ht Heq]. split; [|exact Heq].
  unfold port, env_string. rewrite He, parseInt10_pretty.
  unfold js_or. rewrite Ht. reflexivity.
Qed.

Lemma port_reads_decimal_witness :
  port (submission msg1) = JNum 587%float.
Proof.
  apply (port_reads_decimal (submission msg1) 587); [lia | reflexivity].
Defined.

(** X17. The port falls back to 465 when [EMAIL_PORT] is unset, empty,
    the numeral 0, or a text that begins with a letter. *)
Theorem port_falls_back w :
  process_env w !! "EMAIL_PORT" = None
  ∨ process_env w !! "EMAIL_PORT" = Some ""
  ∨ process_env w !! "EMAIL_PORT" = Some "0"
  ∨ (∃ c s, process_env w !! "EMAIL_PORT" = Some (String c s)
            ∧ is_letter c = true) →
  port w = JNum 465%float.
Proof.
  unfold port, env_string.
  intros [-> | [-> | [-> | (c & s & -> & Hl)]]]; try reflexivity.
  unfold parseInt10. rewrite bytes_String.
  destruct c as [[] [] [] [] [] [] [] []]; try discriminate Hl;
    destruct (bytes s) as [|b2 [|b3 l3]]; reflexivity.
Qed.

Lemma port_falls_back_witness :
  port (port_by_name msg1) = JNum 465%float.
Proof.
  apply (port_falls_back (port_by_name msg1)).
  right. right. right. exists "s"%char, "mtps". split; reflexivity.
Defined.
